(** * pong: live ping statistics and bounded history loop

    A shallow embedding of [pong.py] and the properties of its statistics
    aggregation, its rolling log and its probe loop.

    Modelling conventions.
    - Python [int] values ([sent_packets], [received_packets], [count],
      [size], [interval], [timeout]) are [Z].
    - Python [float] values are exact rationals [Q], extended with [Inf]
      for [float('inf')]; binary rounding error is not modelled.
    - Exceptions are values of [exn]; a computation that may raise returns a
      [result].
    - [pythonping.ping], the wall clock and the operator's Ctrl-C are the
      environment: each loop iteration consumes one [world].
    - The loop body is the list of its statements; [KeyboardInterrupt] is
      raised between two of them.  The handler reads no local variable but
      [stats], which one statement assigns, so an interruption inside a
      statement shows as one at its start or at its end.
    - The [rich] console is a trace of [effect]s. *)

From Stdlib Require Import List ZArith QArith Qround Bool Lia String Ascii.
From Stdlib Require Import DecimalString Qabs Lqa.
Import ListNotations.
Open Scope string_scope.
Open Scope Z_scope.

(** ** Exceptions and fallible computations *)

Inductive exn : Type :=
| IndexError
| ZeroDivisionError
| UnboundLocalError
| KeyboardInterrupt.

Inductive result (A : Type) : Type :=
| Ok (a : A)
| Raise (e : exn).
Arguments Ok {A} a.
Arguments Raise {A} e.

Definition bind {A B : Type} (m : result A) (k : A -> result B) : result B :=
  match m with
  | Ok a => k a
  | Raise e => Raise e
  end.

Notation "x <- m ;; k" := (bind m (fun x => k))
  (at level 61, m at next level, right associativity).

(** ** Numbers *)

(** A Python float: a finite value or [float('inf')]. *)
Inductive num : Type :=
| Fin (q : Q)
| Inf.

Definition Qltb (x y : Q) : bool := negb (Qle_bool y x).

(** [a < b] on floats. *)
Definition num_ltb (a b : num) : bool :=
  match a, b with
  | Fin x, Fin y => Qltb x y
  | Fin _, Inf => true
  | Inf, _ => false
  end.

Definition num_lt (a b : num) : Prop :=
  match a, b with
  | Fin x, Fin y => (x < y)%Q
  | Fin _, Inf => True
  | Inf, _ => False
  end.

Definition num_le (a b : num) : Prop :=
  match a, b with
  | Fin x, Fin y => (x <= y)%Q
  | _, Inf => True
  | Inf, Fin _ => False
  end.

(** The builtin [min(a, b)]: the first argument unless the second is
    strictly smaller. *)
Definition py_min (a b : num) : num := if num_ltb b a then b else a.

(** The builtin [max(a, b)]: the first argument unless the second is
    strictly greater. *)
Definition py_max (a b : Q) : Q := if Qltb a b then b else a.

(** True division [a / b] by an [int]. *)
Definition py_div (a : Q) (b : Z) : result Q :=
  if b =? 0 then Raise ZeroDivisionError else Ok (a / inject_Z b)%Q.

(** Rounding of a rational to the nearest integer, ties to even. *)
Definition round_half_even (q : Q) : Z :=
  let f := Qfloor q in
  let r := (q - inject_Z f)%Q in
  if Qltb r (1 # 2) then f
  else if Qltb (1 # 2) r then f + 1
  else if Z.even f then f else f + 1.

(** The builtin [round(x, 2)]. *)
Definition py_round2 (x : Q) : Q :=
  (inject_Z (round_half_even (x * 100)) / 100)%Q.

(** [thresholds[i]]. *)
Definition index {A : Type} (l : list A) (i : nat) : result A :=
  match nth_error l i with
  | Some a => Ok a
  | None => Raise IndexError
  end.

(** ** Text *)

(** [str(n)] for an [int]. *)
Definition str_int (n : Z) : string := NilZero.string_of_int (Z.to_int n).

Definition str_nat (n : nat) : string := NilZero.string_of_uint (Nat.to_uint n).

Record clock : Type := { hour : nat; minute : nat; second : nat }.

Definition two_digits (n : nat) : string :=
  if (n <? 10)%nat then "0" ++ str_nat n else str_nat n.

(** [datetime.strftime("%H:%M:%S")]. *)
Definition strftime_HMS (c : clock) : string :=
  two_digits (hour c) ++ ":" ++ two_digits (minute c) ++ ":" ++ two_digits (second c).

Definition nl : string := String (ascii_of_nat 10) "".

(** ** Collaborators *)

(** [pythonping.executor.Response], as far as the script reads it. *)
Record Response : Type := {
  success : bool;
  time_elapsed_ms : Q
}.

(** A [rich.table.Table]: title, column headers and rows of cells.  Layout
    attributes (widths, justification, header visibility) are left out. *)
Record Table : Type := {
  title : string;
  columns : list string;
  rows : list (list string)
}.

Definition add_column (name : string) (t : Table) : Table :=
  {| title := title t; columns := columns t ++ [name]; rows := rows t |}.

Definition add_row (cells : list string) (t : Table) : Table :=
  {| title := title t; columns := columns t; rows := rows t ++ [cells] |}.

(** What the script does to the outside world, in order. *)
Inductive effect : Type :=
| Ping (host : string) (count interval timeout size : Z)
| ConsoleClear
| ConsolePrintTable (t : Table)
| ConsolePrintText (s : string)
| Sleep (seconds : Z).

(** What the outside world gives to one loop iteration: the reply of the
    prober, the wall clock read when the reply is formatted, and, if the
    operator interrupts during this iteration, the index of the statement
    of the loop body before (or during) which the interruption arrives. *)
Record world : Type := {
  reply : list Response;
  now : clock;
  interrupt : option nat
}.

(** The local variables of [ping_cli] and the console trace.  A variable
    that is not bound yet is [None]. *)
Record state : Type := {
  sent_packets : Z;
  received_packets : Z;
  rtt_min : num;
  rtt_max : Q;
  rtt_sum : Q;
  pings : list string;
  response_list : list Response;
  response : option Response;
  table : option Table;
  stats : option Table;
  trace : list effect
}.

Definition set_sent_packets (v : Z) (st : state) : state :=
  {| sent_packets := v; received_packets := received_packets st;
     rtt_min := rtt_min st; rtt_max := rtt_max st; rtt_sum := rtt_sum st;
     pings := pings st; response_list := response_list st;
     response := response st; table := table st; stats := stats st;
     trace := trace st |}.

Definition set_rtt (received : Z) (lo : num) (hi sum : Q) (st : state) : state :=
  {| sent_packets := sent_packets st; received_packets := received;
     rtt_min := lo; rtt_max := hi; rtt_sum := sum;
     pings := pings st; response_list := response_list st;
     response := response st; table := table st; stats := stats st;
     trace := trace st |}.

Definition set_pings (v : list string) (st : state) : state :=
  {| sent_packets := sent_packets st; received_packets := received_packets st;
     rtt_min := rtt_min st; rtt_max := rtt_max st; rtt_sum := rtt_sum st;
     pings := v; response_list := response_list st;
     response := response st; table := table st; stats := stats st;
     trace := trace st |}.

Definition set_response_list (v : list Response) (st : state) : state :=
  {| sent_packets := sent_packets st; received_packets := received_packets st;
     rtt_min := rtt_min st; rtt_max := rtt_max st; rtt_sum := rtt_sum st;
     pings := pings st; response_list := v;
     response := response st; table := table st; stats := stats st;
     trace := trace st |}.

Definition set_response (v : option Response) (st : state) : state :=
  {| sent_packets := sent_packets st; received_packets := received_packets st;
     rtt_min := rtt_min st; rtt_max := rtt_max st; rtt_sum := rtt_sum st;
     pings := pings st; response_list := response_list st;
     response := v; table := table st; stats := stats st;
     trace := trace st |}.

Definition set_table (v : Table) (st : state) : state :=
  {| sent_packets := sent_packets st; received_packets := received_packets st;
     rtt_min := rtt_min st; rtt_max := rtt_max st; rtt_sum := rtt_sum st;
     pings := pings st; response_list := response_list st;
     response := response st; table := Some v; stats := stats st;
     trace := trace st |}.

Definition set_stats (v : Table) (st : state) : state :=
  {| sent_packets := sent_packets st; received_packets := received_packets st;
     rtt_min := rtt_min st; rtt_max := rtt_max st; rtt_sum := rtt_sum st;
     pings := pings st; response_list := response_list st;
     response := response st; table := table st; stats := Some v;
     trace := trace st |}.

(** Performing an effect appends it to the trace. *)
Definition emit (e : effect) (st : state) : state :=
  {| sent_packets := sent_packets st; received_packets := received_packets st;
     rtt_min := rtt_min st; rtt_max := rtt_max st; rtt_sum := rtt_sum st;
     pings := pings st; response_list := response_list st;
     response := response st; table := table st; stats := stats st;
     trace := trace st ++ [e] |}.

(** How a statement of the loop body ends. *)
Inductive signal : Type :=
| Normal (st : state)
| Break (st : state)
| Raised (e : exn) (st : state).

(** Lifting a fallible expression into a statement. *)
Definition exec {A : Type} (m : result A) (st : state) (k : A -> state) : signal :=
  match m with
  | Ok a => Normal (k a)
  | Raise e => Raised e st
  end.

(** How a run of [ping_cli] ends: the two terminal states of the loop, an
    uncaught exception, or still running when the script of worlds ends. *)
Inductive exit : Type :=
| Completed
| Interrupted
| Faulted (e : exn)
| Running.

(** A stand-in float printer, to run the development on concrete inputs. *)
Definition str_ratio (v : num) : string :=
  match v with
  | Fin q => str_int (Qnum q) ++ "/" ++ str_int (Zpos (Qden q))
  | Inf => "inf"
  end.

Section Pong.

(** [f"{value}"] for a float: the runtime's float formatting. *)
Variable py_str : num -> string.

(** ** Formatting (lines 31-113) *)

Definition format_color (value : num) (thresholds : list Q) (append : string)
  : result string :=
  t0 <- index thresholds 0 ;;
  if num_ltb value (Fin t0) then
    Ok ("[green]" ++ py_str value ++ append ++ "[/green]")
  else
    t1 <- index thresholds 1 ;;
    if num_ltb value (Fin t1) then
      Ok ("[yellow]" ++ py_str value ++ append ++ "[/yellow]")
    else
      Ok ("[red]" ++ py_str value ++ append ++ "[/red]").

Definition format_rtt (rtt : num) : result string :=
  format_color rtt [50%Q; 100%Q] "ms".

Definition create_ping_output (t : clock) (response : Response) (host : string)
  (size : Z) : result string :=
  if success response then
    let rtt := time_elapsed_ms response in
    text <- format_rtt (Fin rtt) ;;
    Ok (strftime_HMS t ++ " - Reply from " ++ host ++ ": bytes=" ++ str_int size
        ++ " time=" ++ text)
  else
    Ok (strftime_HMS t ++ " - Request timed out").

Definition construct_stats_panel (sent_packets received_packets : Z)
  (rtt_min : num) (rtt_max : Q) (rtt_avg : Q) (loss_percentage : Q)
  : result Table :=
  let stats_table := {| title := "Current Stats"; columns := []; rows := [] |} in
  let stats_table := add_column "Stat" stats_table in
  let stats_table := add_column "Value" stats_table in
  loss_text <- format_color (Fin loss_percentage) [10%Q; 20%Q] "%" ;;
  rtt_min_text <- format_rtt rtt_min ;;
  rtt_max_text <- format_rtt (Fin rtt_max) ;;
  rtt_avg_text <- format_rtt (Fin (py_round2 rtt_avg)) ;;
  let stats_table := add_row ["Sent"; str_int sent_packets] stats_table in
  let stats_table := add_row ["Received"; str_int received_packets] stats_table in
  let stats_table := add_row ["Loss"; loss_text] stats_table in
  let stats_table := add_row ["RTT Min"; rtt_min_text] stats_table in
  let stats_table := add_row ["RTT Max"; rtt_max_text] stats_table in
  let stats_table := add_row ["RTT Avg"; rtt_avg_text] stats_table in
  Ok stats_table.

(** ** The loop body of [ping_cli] (lines 136-173), statement by statement *)

(** Line 136. *)
Definition inc_sent (st : state) : signal :=
  Normal (set_sent_packets (sent_packets st + 1) st).

(** Line 137, with [ping_host] (line 62) inlined: one probe per call. *)
Definition call_ping (host : string) (interval timeout size : Z) (w : world)
  (st : state) : signal :=
  Normal (set_response_list (reply w) (emit (Ping host 1 interval timeout size) st)).

(** Line 138: [next(iter(response_list), None)]. *)
Definition take_first (st : state) : signal :=
  Normal (set_response (hd_error (response_list st)) st).

(** Lines 140-141.  A [Response] object is truthy, [None] is not. *)
Definition log_reply (host : string) (size : Z) (w : world) (st : state) : signal :=
  match response st with
  | Some r =>
      exec (create_ping_output (now w) r host size) st
        (fun line => set_pings (pings st ++ [line]) st)
  | None => Normal st
  end.

(** Lines 140, 142-147. *)
Definition record_reply (st : state) : signal :=
  match response st with
  | Some r =>
      if success r then
        let rtt := time_elapsed_ms r in
        Normal (set_rtt (received_packets st + 1)
                        (py_min (rtt_min st) (Fin rtt))
                        (py_max (rtt_max st) rtt)
                        (rtt_sum st + rtt)%Q st)
      else Normal st
  | None => Normal st
  end.

(** Lines 149-150: [pings.pop(0)] drops the element at index 0. *)
Definition evict (st : state) : signal :=
  if (20 <? List.length (pings st))%nat then Normal (set_pings (tl (pings st)) st)
  else Normal st.

(** Lines 152-155. *)
Definition build_table (st : state) : signal :=
  let t := {| title := ""; columns := []; rows := [] |} in
  let t := add_column "Ping Output" t in
  Normal (set_table (fold_left (fun t ping_result => add_row [ping_result] t)
                               (pings st) t) st).

(** Line 158. *)
Definition loss_percentage (st : state) : result Q :=
  let loss_count := sent_packets st - received_packets st in
  if 0 <? sent_packets st then
    q <- py_div (inject_Z loss_count) (sent_packets st) ;; Ok (q * 100)%Q
  else Ok 0%Q.

(** Line 163. *)
Definition rtt_avg (st : state) : result Q :=
  if 0 <? received_packets st then py_div (rtt_sum st) (received_packets st)
  else Ok 0%Q.

(** Lines 157-164. *)
Definition build_stats (st : state) : signal :=
  exec (loss <- loss_percentage st ;;
        avg <- rtt_avg st ;;
        construct_stats_panel (sent_packets st) (received_packets st)
          (rtt_min st) (rtt_max st) avg loss)
       st (fun panel => set_stats panel st).

(** [console.print(v)] for a local variable [v] holding a table. *)
Definition console_print (v : option Table) (st : state) : signal :=
  match v with
  | Some t => Normal (emit (ConsolePrintTable t) st)
  | None => Raised UnboundLocalError st
  end.

(** Line 166. *)
Definition console_clear (st : state) : signal := Normal (emit ConsoleClear st).

(** Lines 170-171. *)
Definition break_test (infinite : bool) (count : Z) (st : state) : signal :=
  if negb infinite && (count <=? sent_packets st) then Break st else Normal st.

(** Line 173. *)
Definition sleep (interval : Z) (st : state) : signal :=
  Normal (emit (Sleep interval) st).

Definition body (host : string) (count interval timeout size : Z) (infinite : bool)
  : list (world -> state -> signal) :=
  [ fun _ => inc_sent;
    call_ping host interval timeout size;
    fun _ => take_first;
    log_reply host size;
    fun _ => record_reply;
    fun _ => evict;
    fun _ => build_table;
    fun _ => build_stats;
    fun _ => console_clear;
    fun _ st => console_print (table st) st;
    fun _ st => console_print (stats st) st;
    fun _ => break_test infinite count;
    fun _ => sleep interval ].

Definition interrupted_at (w : world) (k : nat) : bool :=
  match interrupt w with
  | Some i => (i =? k)%nat
  | None => false
  end.

(** Runs the statements [ss], the first of which has index [k], in the world
    [w]: [KeyboardInterrupt] is raised at the statement the world names, with
    none of that statement's effect done. *)
Fixpoint run_stmts (ss : list (world -> state -> signal)) (k : nat) (w : world)
  (st : state) : signal :=
  match ss with
  | [] => Normal st
  | s :: ss' =>
      if interrupted_at w k then Raised KeyboardInterrupt st
      else
        match s w st with
        | Normal st' => run_stmts ss' (S k) w st'
        | other => other
        end
  end.

(** ** [ping_cli] (lines 122-181) *)

(** One pass over the loop body, lines 136-173. *)
Definition iteration (host : string) (count interval timeout size : Z)
  (infinite : bool) (w : world) (st : state) : signal :=
  run_stmts (body host count interval timeout size infinite) 0 w st.

(** Lines 126-132. *)
Definition init : state :=
  {| sent_packets := 0; received_packets := 0; rtt_min := Inf; rtt_max := 0%Q;
     rtt_sum := 0%Q; pings := []; response_list := []; response := None;
     table := None; stats := None; trace := [] |}.

(** Line 135: [infinite or sent_packets < count]. *)
Definition loop_test (infinite : bool) (count : Z) (st : state) : bool :=
  infinite || (sent_packets st <? count).

Definition finish (final : exit) (s : signal) : exit * state :=
  match s with
  | Normal st | Break st => (final, st)
  | Raised e st => (Faulted e, st)
  end.

(** Lines 175-176. *)
Definition epilogue (st : state) : exit * state :=
  let st := emit (ConsolePrintText (nl ++ "Final statistics:")) st in
  finish Completed (console_print (stats st) st).

(** Lines 178-181. *)
Definition on_interrupt (st : state) : exit * state :=
  let st := emit (ConsolePrintText (nl ++ "Ping interrupted.")) st in
  let st := emit (ConsolePrintText (nl ++ "Final statistics:")) st in
  finish Interrupted (console_print (stats st) st).

(** Lines 134-181: one world per iteration. *)
Fixpoint while_loop (host : string) (count interval timeout size : Z)
  (infinite : bool) (script : list world) (st : state) : exit * state :=
  if loop_test infinite count st then
    match script with
    | [] => (Running, st)
    | w :: script' =>
        match iteration host count interval timeout size infinite w st with
        | Normal st' =>
            while_loop host count interval timeout size infinite script' st'
        | Break st' => epilogue st'
        | Raised KeyboardInterrupt st' => on_interrupt st'
        | Raised e st' => (Faulted e, st')
        end
    end
  else epilogue st.

Definition ping_cli (host : string) (count interval timeout size : Z)
  (infinite : bool) (script : list world) : exit * state :=
  while_loop host count interval timeout size infinite script init.

(** ** Vocabulary of the specification *)

Definition state_of (s : signal) : state :=
  match s with
  | Normal st | Break st | Raised _ st => st
  end.

(** The aggregator's [record]: what lines 136 and 142-147 do with the
    outcome of one probe, [None] standing for an empty reply. *)
Definition record (outcome : option Response) (st : state) : state :=
  state_of (record_reply (set_response outcome (state_of (inc_sent st)))).

Definition record_all (outcomes : list (option Response)) (st : state) : state :=
  fold_left (fun st o => record o st) outcomes st.

(** The states at the head of the loop, line 135. *)
Inductive loop_head (host : string) (count interval timeout size : Z)
  (infinite : bool) : state -> Prop :=
| head_init : loop_head host count interval timeout size infinite init
| head_next (st st' : state) (w : world) :
    loop_head host count interval timeout size infinite st ->
    loop_test infinite count st = true ->
    iteration host count interval timeout size infinite w st = Normal st' ->
    loop_head host count interval timeout size infinite st'.

(** The state at the head of the loop after the iterations of a script, if
    all of them end normally. *)
Fixpoint heads (host : string) (count interval timeout size : Z)
  (infinite : bool) (script : list world) (st : state) : option state :=
  match script with
  | [] => Some st
  | w :: script' =>
      if loop_test infinite count st then
        match iteration host count interval timeout size infinite w st with
        | Normal st' => heads host count interval timeout size infinite script' st'
        | _ => None
        end
      else None
  end.

(** The states of a run at any statement boundary of the loop body,
    interrupted or not. *)
Definition reachable (host : string) (count interval timeout size : Z)
  (infinite : bool) (st' : state) : Prop :=
  exists (st : state) (w : world) (n : nat),
    loop_head host count interval timeout size infinite st /\
    (n = 0%nat \/ loop_test infinite count st = true) /\
    st' = state_of (run_stmts
                      (firstn n (body host count interval timeout size infinite))
                      0 w st).

(** A world that leaves the iteration alone. *)
Definition quiet (w : world) : Prop := interrupt w = None.


(** The number of probes sent, read off the trace. *)
Definition probes (tr : list effect) : nat :=
  List.length (filter (fun e => match e with Ping _ _ _ _ _ => true | _ => false end) tr).

(** The rolling log as the specification words it: when the log is full,
    the entry at index 0 is removed before the new one is added. *)
Definition RollingLog_append (formattedEvent : string) (entries : list string)
  : list string :=
  if (List.length entries =? 20)%nat then (tl entries ++ [formattedEvent])%list
  else (entries ++ [formattedEvent])%list.

(** The colouring tiers and the markup that shows them. *)
Inductive tier : Type := good | warn | bad.

Definition colour (t : tier) : string :=
  match t with
  | good => "green"
  | warn => "yellow"
  | bad => "red"
  end.

Definition markup (t : tier) (text : string) : string :=
  "[" ++ colour t ++ "]" ++ text ++ "[/" ++ colour t ++ "]".

(** The tier of a value against two thresholds, as the specification
    words it. *)
Definition tier_of (low high : Q) (v : num) : tier :=
  if num_ltb v (Fin low) then good
  else if num_ltb v (Fin high) then warn
  else bad.

(** The event line as the specification words it. *)
Definition event_line (t : clock) (r : Response) (host : string) (size : Z)
  : string :=
  if success r then
    strftime_HMS t ++ " - Reply from " ++ host ++ ": bytes=" ++ str_int size
    ++ " time="
    ++ markup (tier_of 50 100 (Fin (time_elapsed_ms r)))
              (py_str (Fin (time_elapsed_ms r)) ++ "ms")
  else strftime_HMS t ++ " - Request timed out".

(** The statistics panel as the specification words it: six rows, the
    loss and the three round-trip times coloured by tier, the average
    rounded to two decimals first. *)
Definition stats_panel (sent received : Z) (lo : num) (hi avg loss : Q) : Table :=
  {| title := "Current Stats";
     columns := ["Stat"; "Value"];
     rows :=
       [ ["Sent"; str_int sent];
         ["Received"; str_int received];
         ["Loss"; markup (tier_of 10 20 (Fin loss)) (py_str (Fin loss) ++ "%")];
         ["RTT Min"; markup (tier_of 50 100 lo) (py_str lo ++ "ms")];
         ["RTT Max"; markup (tier_of 50 100 (Fin hi)) (py_str (Fin hi) ++ "ms")];
         ["RTT Avg"; markup (tier_of 50 100 (Fin (py_round2 avg)))
                            (py_str (Fin (py_round2 avg)) ++ "ms")] ] |}.



(** What lines 149-150 leave of a log. *)
Definition pop_overflow (l : list string) : list string :=
  if (20 <? List.length l)%nat then tl l else l.

(** What lines 140-150 leave of the log, for the outcome of one probe. *)
Definition logged (host : string) (size : Z) (t : clock)
  (outcome : option Response) (l : list string) : list string :=
  match outcome with
  | Some r => pop_overflow (l ++ [event_line t r host size])
  | None => pop_overflow l
  end.

(** The panel an iteration builds from the state it has reached. *)
Definition panel_of (st : state) (panel : Table) : Prop :=
  exists loss avg : Q,
    loss_percentage st = Ok loss /\ rtt_avg st = Ok avg /\
    panel = stats_panel (sent_packets st) (received_packets st) (rtt_min st)
              (rtt_max st) avg loss.

(** The rolling-log table an iteration builds. *)
Definition log_table (l : list string) : Table :=
  {| title := ""; columns := ["Ping Output"]; rows := map (fun p => [p]) l |}.

(** Whether an outcome is a success, and the time it took. *)
Definition succeeded (outcome : option Response) : bool :=
  match outcome with
  | Some r => success r
  | None => false
  end.

Definition elapsedMs (outcome : option Response) : Q :=
  match outcome with
  | Some r => time_elapsed_ms r
  | None => 0%Q
  end.

(** What holds of the aggregator and the log at every statement boundary. *)
Definition consistent (st : state) : Prop :=
  0 <= received_packets st <= sent_packets st
  /\ (0 < received_packets st -> num_le (rtt_min st) (Fin (rtt_max st)))
  /\ (List.length (pings st) <= 21)%nat.

(** What holds before the statement of index [k] of the loop body (and, for
    [k = 13], at the head of the loop): between the increment of
    [sent_packets] and the recording of the reply one probe is in flight,
    and between the append and the eviction the log may hold one line more. *)
Definition at_point (k : nat) (st : state) : Prop :=
  0 <= received_packets st
  /\ (0 < received_packets st -> num_le (rtt_min st) (Fin (rtt_max st)))
  /\ (if (1 <=? k)%nat && (k <=? 4)%nat
      then received_packets st < sent_packets st
      else received_packets st <= sent_packets st)
  /\ (if (4 <=? k)%nat && (k <=? 5)%nat
      then (List.length (pings st) <= 21)%nat
      else (List.length (pings st) <= 20)%nat).



(** The outcomes a script of worlds holds. *)
Definition outcomes (script : list world) : list (option Response) :=
  map (fun w => hd_error (reply w)) script.

Definition final_statistics : string := nl ++ "Final statistics:".

(** Sample worlds. *)
Definition nine_oh_five : clock := {| hour := 9; minute := 5; second := 30 |}.

Definition replied (ms : Q) : world :=
  {| reply := [{| success := true; time_elapsed_ms := ms |}];
     now := nine_oh_five; interrupt := None |}.

Definition timed_out : world :=
  {| reply := [{| success := false; time_elapsed_ms := 0 |}];
     now := nine_oh_five; interrupt := None |}.

Definition no_reply : world :=
  {| reply := []; now := nine_oh_five; interrupt := None |}.

Definition interrupted (k : nat) : world :=
  {| reply := [{| success := true; time_elapsed_ms := 15 |}];
     now := nine_oh_five; interrupt := Some k |}.

(** ** Vocabulary of the further properties *)

(** The rank of a tier, best first. *)
Definition rank (t : tier) : nat :=
  match t with
  | good => 0
  | warn => 1
  | bad => 2
  end.





(** What holds before the statement of index [k] of an iteration entered
    with [s0] probes counted and [p0] probes sent: the count is raised by
    statement 0, the probe is sent by statement 1, the panel is bound from
    statement 7 on, and past the test of line 170 the count is not reached
    yet. *)
Definition in_flight (infinite : bool) (count s0 : Z) (p0 : nat) (k : nat)
  (st : state) : Prop :=
  sent_packets st = s0 + (if (k =? 0)%nat then 0 else 1)
  /\ probes (trace st) = (p0 + (if (k <=? 1)%nat then 0 else 1))%nat
  /\ ((8 <= k)%nat -> stats st <> None)
  /\ ((12 <= k)%nat -> infinite = false -> sent_packets st < count).

(** What holds wherever such an iteration stops. *)
Definition stopped (s0 : Z) (p0 : nat) (st : state) : Prop :=
  s0 <= sent_packets st <= s0 + 1
  /\ (p0 <= probes (trace st))%nat
  /\ Z.of_nat (probes (trace st)) - Z.of_nat p0 <= sent_packets st - s0.


(** What holds at the head of the loop: every probe counted was sent, a
    panel is bound once a probe is counted, and with a count the count is
    not passed. *)
Definition head_ok (infinite : bool) (count : Z) (st : state) : Prop :=
  Z.of_nat (probes (trace st)) = sent_packets st
  /\ (stats st = None -> sent_packets st = 0)
  /\ (infinite = false -> sent_packets st = 0 \/ sent_packets st < count).

(** What holds of the way a run ends and of the state it ends in. *)
Definition run_ok (infinite : bool) (count : Z) (r : exit * state) : Prop :=
  Z.of_nat (probes (trace (snd r))) <= sent_packets (snd r)
                                    <= Z.of_nat (probes (trace (snd r))) + 1
  /\ (infinite = false -> sent_packets (snd r) <= Z.max 0 count)
  /\ (fst r = Completed \/ fst r = Interrupted \/ fst r = Running
      \/ (fst r = Faulted UnboundLocalError
          /\ stats (snd r) = None /\ sent_packets (snd r) <= 1)).

Definition twenty_replies : list world := repeat (replied 10) 20.

(** * Properties *)

(** ** Numbers *)

Lemma Qltb_lt (x y : Q) : Qltb x y = true <-> (x < y)%Q.
Proof.
  unfold Qltb. rewrite negb_true_iff, <- not_true_iff_false, Qle_bool_iff.
  split; [apply Qnot_le_lt | apply Qlt_not_le].
Qed.

Lemma Qltb_ge (x y : Q) : Qltb x y = false <-> (y <= x)%Q.
Proof.
  unfold Qltb. rewrite negb_false_iff. apply Qle_bool_iff.
Qed.

Lemma num_ltb_lt (a b : num) : num_ltb a b = true <-> num_lt a b.
Proof.
  destruct a, b; simpl; try apply Qltb_lt; intuition discriminate.
Qed.

Lemma num_ltb_ge (a b : num) : num_ltb a b = false <-> num_le b a.
Proof.
  destruct a, b; simpl; try apply Qltb_ge; intuition discriminate.
Qed.

Lemma num_le_refl (a : num) : num_le a a.
Proof. destruct a; simpl; [apply Qle_refl | exact I]. Qed.

Lemma num_le_trans (a b c : num) : num_le a b -> num_le b c -> num_le a c.
Proof.
  destruct a, b, c; simpl; try tauto. apply Qle_trans.
Qed.

Lemma py_min_le_l (a b : num) : num_le (py_min a b) a.
Proof.
  unfold py_min. destruct (num_ltb b a) eqn:E.
  - apply num_ltb_lt in E. destruct a, b; simpl in *; try tauto.
    now apply Qlt_le_weak.
  - apply num_le_refl.
Qed.

Lemma py_min_le_r (a b : num) : num_le (py_min a b) b.
Proof.
  unfold py_min. destruct (num_ltb b a) eqn:E.
  - apply num_le_refl.
  - now apply num_ltb_ge in E.
Qed.

Lemma py_min_cases (a b : num) : py_min a b = a \/ py_min a b = b.
Proof. unfold py_min. destruct (num_ltb b a); auto. Qed.

Lemma py_max_ge_l (a b : Q) : (a <= py_max a b)%Q.
Proof.
  unfold py_max. destruct (Qltb a b) eqn:E.
  - apply Qltb_lt in E. now apply Qlt_le_weak.
  - apply Qle_refl.
Qed.

Lemma py_max_ge_r (a b : Q) : (b <= py_max a b)%Q.
Proof.
  unfold py_max. destruct (Qltb a b) eqn:E.
  - apply Qle_refl.
  - now apply Qltb_ge in E.
Qed.

Lemma py_max_cases (a b : Q) : py_max a b = a \/ py_max a b = b.
Proof. unfold py_max. destruct (Qltb a b); auto. Qed.

(** ** Formatting never raises *)

Lemma append_assoc (a b c : string) : (a ++ b) ++ c = a ++ b ++ c.
Proof. induction a as [| x a IH]; simpl; [reflexivity | now rewrite IH]. Qed.

Lemma format_color_tier (v : num) (low high : Q) (append : string) :
  format_color v [low; high] append
  = Ok (markup (tier_of low high v) (py_str v ++ append)).
Proof.
  unfold format_color, tier_of, markup. simpl.
  destruct (num_ltb v (Fin low)); simpl; [now rewrite append_assoc |].
  destruct (num_ltb v (Fin high)); simpl; now rewrite append_assoc.
Qed.

Lemma format_rtt_tier (v : num) :
  format_rtt v = Ok (markup (tier_of 50 100 v) (py_str v ++ "ms")).
Proof. apply format_color_tier. Qed.

Lemma create_ping_output_line (t : clock) (r : Response) (host : string) (size : Z) :
  create_ping_output t r host size = Ok (event_line t r host size).
Proof.
  unfold create_ping_output, event_line.
  destruct (success r); [| reflexivity].
  now rewrite format_rtt_tier.
Qed.

Lemma construct_stats_panel_rows (sent received : Z) (lo : num) (hi avg loss : Q) :
  construct_stats_panel sent received lo hi avg loss
  = Ok (stats_panel sent received lo hi avg loss).
Proof.
  unfold construct_stats_panel.
  rewrite format_color_tier, !format_rtt_tier. reflexivity.
Qed.

Lemma loss_percentage_value (st : state) :
  loss_percentage st
  = Ok (if 0 <? sent_packets st
        then (inject_Z (sent_packets st - received_packets st)
              / inject_Z (sent_packets st) * 100)%Q
        else 0%Q).
Proof.
  unfold loss_percentage, py_div.
  destruct (0 <? sent_packets st) eqn:E; [| reflexivity].
  apply Z.ltb_lt in E.
  destruct (sent_packets st =? 0) eqn:E0; [apply Z.eqb_eq in E0; lia |].
  reflexivity.
Qed.

Lemma rtt_avg_value (st : state) :
  rtt_avg st
  = Ok (if 0 <? received_packets st
        then (rtt_sum st / inject_Z (received_packets st))%Q
        else 0%Q).
Proof.
  unfold rtt_avg, py_div.
  destruct (0 <? received_packets st) eqn:E; [| reflexivity].
  apply Z.ltb_lt in E.
  destruct (received_packets st =? 0) eqn:E0; [apply Z.eqb_eq in E0; lia |].
  reflexivity.
Qed.

Lemma fold_add_row (l : list string) (t : Table) :
  fold_left (fun t ping_result => add_row [ping_result] t) l t
  = {| title := title t; columns := columns t;
       rows := (rows t ++ map (fun p => [p]) l)%list |}.
Proof.
  revert t. induction l as [| x l IH]; intros t; simpl.
  - rewrite app_nil_r. now destruct t.
  - rewrite IH. simpl. now rewrite <- app_assoc.
Qed.

Ltac finish_iteration :=
  rewrite loss_percentage_value, rtt_avg_value;
  cbn -[construct_stats_panel event_line Nat.ltb];
  rewrite construct_stats_panel_rows;
  cbn -[event_line stats_panel];
  unfold break_test;
  match goal with
  | |- context [if _ then Break ?X else Normal ?X] => exists X
  end;
  eexists; split;
  [ cbn -[event_line stats_panel];
    match goal with |- context [if ?c then Break _ else _] => destruct c end;
    reflexivity
  | cbn -[event_line stats_panel loss_percentage rtt_avg];
    repeat split; try reflexivity;
    [ eexists; eexists; split;
      [ apply loss_percentage_value | split; [ apply rtt_avg_value | reflexivity ] ]
    | rewrite fold_add_row, <- !app_assoc; reflexivity ] ].

(** An iteration that is not interrupted: what it leaves in the local
    variables, what it prints, and how it ends. *)
Lemma iteration_quiet (host : string) (count interval timeout size : Z)
  (infinite : bool) (w : world) (st : state) :
  quiet w ->
  exists (st1 : state) (panel : Table),
    iteration host count interval timeout size infinite w st
    = (if negb infinite && (count <=? sent_packets st1) then Break st1
       else Normal (emit (Sleep interval) st1))
    /\ sent_packets st1 = sent_packets st + 1
    /\ received_packets st1 = received_packets (record (hd_error (reply w)) st)
    /\ rtt_min st1 = rtt_min (record (hd_error (reply w)) st)
    /\ rtt_max st1 = rtt_max (record (hd_error (reply w)) st)
    /\ rtt_sum st1 = rtt_sum (record (hd_error (reply w)) st)
    /\ pings st1 = logged host size (now w) (hd_error (reply w)) (pings st)
    /\ stats st1 = Some panel
    /\ panel_of st1 panel
    /\ trace st1
       = (trace st ++ [Ping host 1 interval timeout size; ConsoleClear;
                       ConsolePrintTable (log_table (pings st1));
                       ConsolePrintTable panel])%list.
Proof.
  unfold quiet. intros Hq.
  unfold iteration, body. cbn [run_stmts]. unfold interrupted_at. rewrite Hq.
  unfold record, logged.
  destruct (hd_error (reply w)) as [r |] eqn:Hr.
  - unfold log_reply at 1.
    cbn -[create_ping_output construct_stats_panel loss_percentage rtt_avg].
    rewrite Hr, create_ping_output_line.
    unfold record_reply, evict, build_stats, build_table, pop_overflow.
    cbn -[construct_stats_panel loss_percentage rtt_avg event_line Nat.ltb].
    destruct (success r);
    cbn -[construct_stats_panel loss_percentage rtt_avg event_line Nat.ltb].
    all: match goal with |- context [if ?c then Normal _ else Normal _] => destruct c end.
    all: cbn -[construct_stats_panel loss_percentage rtt_avg event_line Nat.ltb].
    all: finish_iteration.
  - unfold log_reply at 1.
    cbn -[create_ping_output construct_stats_panel loss_percentage rtt_avg].
    rewrite Hr.
    unfold record_reply, evict, build_stats, build_table, pop_overflow.
    cbn -[construct_stats_panel loss_percentage rtt_avg event_line Nat.ltb].
    match goal with |- context [if ?c then Normal _ else Normal _] => destruct c end.
    all: cbn -[construct_stats_panel loss_percentage rtt_avg event_line Nat.ltb].
    all: finish_iteration.
Qed.

Ltac crunch_body :=
  repeat first
    [ rewrite create_ping_output_line
    | rewrite loss_percentage_value
    | rewrite rtt_avg_value
    | rewrite construct_stats_panel_rows
    | progress cbn -[create_ping_output construct_stats_panel loss_percentage
                     rtt_avg event_line stats_panel Nat.ltb Z.leb Z.add]
    | match goal with
      | |- context [if ?c then _ else _] => destruct c eqn:?
      end ].

(** An iteration, interrupted or not, ends normally, by [break] (only when
    not in infinite mode, with a panel built), or by [KeyboardInterrupt]. *)
Lemma iteration_shape (host : string) (count interval timeout size : Z)
  (infinite : bool) (w : world) (st : state) :
  exists st' : state,
    (iteration host count interval timeout size infinite w st = Normal st'
     \/ (iteration host count interval timeout size infinite w st = Break st'
         /\ infinite = false /\ exists panel, stats st' = Some panel)
     \/ iteration host count interval timeout size infinite w st
        = Raised KeyboardInterrupt st')
    /\ (stats st' = stats st \/ exists panel, stats st' = Some panel).
Proof.
  unfold iteration, body, interrupted_at.
  destruct (interrupt w) as [k |] eqn:Hk.
  - do 13 (try destruct k as [| k]).
    all: cbn [run_stmts]; unfold interrupted_at; rewrite Hk.
    all: unfold inc_sent, call_ping, take_first, log_reply, record_reply, evict,
         build_table, build_stats, console_clear, console_print, break_test, sleep.
    all: destruct (hd_error (reply w)) as [r |] eqn:Hr.
    all: crunch_body.
    all: try rewrite Hr.
    all: crunch_body.
    all: eexists; split;
      [ first [ left; reflexivity
              | right; right; reflexivity
              | right; left; split; [reflexivity | split; [ | eexists; reflexivity ]] ]
      | first [ left; reflexivity | right; eexists; reflexivity ] ].
    all: destruct infinite; [discriminate | reflexivity].
  - fold (body host count interval timeout size infinite).
    fold (iteration host count interval timeout size infinite w st).
    destruct (iteration_quiet host count interval timeout size infinite w st Hk)
      as (st1 & panel & Hrun & _ & _ & _ & _ & _ & _ & Hstats & _).
    rewrite Hrun.
    destruct (negb infinite && (count <=? sent_packets st1)) eqn:Hb.
    + exists st1. split; [| right; now exists panel].
      right; left. split; [reflexivity |]. split; [| now exists panel].
      destruct infinite; [discriminate | reflexivity].
    + exists (emit (Sleep interval) st1). split; [now left |].
      right. now exists panel.
Qed.

(** ** Invariants of the loop *)

Section Hoare.

Variables (P : nat -> state -> Prop) (Q : state -> Prop) (w : world).
Hypothesis P_Q : forall k st, P k st -> Q st.

(** Assertions indexed by statement carry through a run of statements; a
    run that stops early stops in a state where [Q] holds. *)
Lemma run_stmts_hoare (ss : list (world -> state -> signal)) :
  forall (j : nat) (st : state),
    (forall i s, nth_error ss i = Some s ->
       forall st0, P (j + i) st0 ->
         match s w st0 with
         | Normal st1 => P (S (j + i)) st1
         | Break st1 | Raised _ st1 => Q st1
         end) ->
    P j st ->
    match run_stmts ss j w st with
    | Normal st' => P (j + List.length ss) st'
    | Break st' | Raised _ st' => Q st'
    end.
Proof.
  induction ss as [| s ss IH]; intros j st Hss Hst; simpl.
  - now rewrite Nat.add_0_r.
  - destruct (interrupted_at w j); [now apply (P_Q j) |].
    generalize (Hss 0%nat s eq_refl st). rewrite Nat.add_0_r. intros H0.
    specialize (H0 Hst).
    destruct (s w st) as [st1 | st1 | e st1]; try exact H0.
    replace (j + S (List.length ss))%nat with (S j + List.length ss)%nat by lia.
    apply IH; [| exact H0].
    intros i s' Hi st0 Hst0.
    generalize (Hss (S i) s' Hi st0).
    replace (j + S i)%nat with (S j + i)%nat by lia.
    intros H; exact (H Hst0).
Qed.

End Hoare.

Lemma at_point_consistent (k : nat) (st : state) : at_point k st -> consistent st.
Proof.
  unfold at_point, consistent. intros (H0 & Hr & Hs & Hl).
  destruct ((1 <=? k)%nat && (k <=? 4)%nat), ((4 <=? k)%nat && (k <=? 5)%nat);
    repeat split; auto; lia.
Qed.

Lemma length_snoc (l : list string) (x : string) :
  List.length (l ++ [x]) = S (List.length l).
Proof. rewrite length_app. simpl. lia. Qed.

Lemma length_tl (l : list string) : List.length (tl l) = pred (List.length l).
Proof. now destruct l. Qed.

(** Every statement of the body takes the assertion of its index to the
    next one. *)
Lemma body_at_point (host : string) (count interval timeout size : Z)
  (infinite : bool) (w : world) (i : nat) (s : world -> state -> signal) :
  nth_error (body host count interval timeout size infinite) i = Some s ->
  forall st0, at_point (0 + i) st0 ->
    match s w st0 with
    | Normal st1 => at_point (S (0 + i)) st1
    | Break st1 | Raised _ st1 => consistent st1
    end.
Proof.
  intros Hi st0. simpl.
  do 13 (try destruct i as [| i]); simpl in Hi;
    try (injection Hi as <-); try (destruct i; discriminate).
  all: unfold at_point; simpl; intros (H0 & Hr & Hs & Hl).
  - repeat split; auto; lia.
  - repeat split; auto.
  - repeat split; auto.
  - unfold log_reply. simpl. destruct (response st0) as [r |].
    + rewrite create_ping_output_line. simpl. rewrite length_snoc.
      repeat split; auto; lia.
    + repeat split; auto; lia.
  - unfold record_reply. destruct (response st0) as [r |].
    + destruct (success r); simpl; repeat split; auto; try lia.
      intros _. apply num_le_trans with (Fin (time_elapsed_ms r)).
      * apply py_min_le_r.
      * simpl. apply py_max_ge_r.
    + repeat split; auto; lia.
  - unfold evict. destruct (20 <? List.length (pings st0))%nat eqn:E; simpl.
    + rewrite length_tl. repeat split; auto; lia.
    + apply Nat.ltb_ge in E. repeat split; auto.
  - repeat split; auto.
  - unfold build_stats. rewrite loss_percentage_value, rtt_avg_value. simpl.
    rewrite construct_stats_panel_rows. simpl. repeat split; auto.
  - repeat split; auto.
  - unfold console_print. destruct (table st0); simpl.
    + repeat split; auto.
    + unfold consistent. repeat split; auto; lia.
  - unfold console_print. destruct (stats st0); simpl.
    + repeat split; auto.
    + unfold consistent. repeat split; auto; lia.
  - unfold break_test. destruct (negb infinite && (count <=? sent_packets st0)).
    + unfold consistent. repeat split; auto; lia.
    + repeat split; auto.
  - repeat split; auto.
Qed.

Lemma nth_error_firstn_some {A : Type} (n : nat) (l : list A) (i : nat) (a : A) :
  nth_error (firstn n l) i = Some a -> nth_error l i = Some a.
Proof.
  revert l i. induction n as [| n IH]; intros l i; simpl.
  - destruct i; discriminate.
  - destruct l as [| x l]; [destruct i; discriminate |].
    destruct i as [| i]; simpl; [auto | apply IH].
Qed.

Lemma at_point_init : at_point 0 init.
Proof. unfold at_point; simpl. repeat split; try lia. Qed.

(** At the head of the loop the aggregator and the log are in order. *)
Lemma loop_head_at_point (host : string) (count interval timeout size : Z)
  (infinite : bool) (st : state) :
  loop_head host count interval timeout size infinite st -> at_point 0 st.
Proof.
  induction 1 as [| st st' w _ IH _ Hrun]; [apply at_point_init |].
  generalize (run_stmts_hoare at_point consistent w at_point_consistent
                (body host count interval timeout size infinite) 0%nat st
                (body_at_point host count interval timeout size infinite w) IH).
  unfold iteration in Hrun. rewrite Hrun. exact (fun H => H).
Qed.

(** At every statement boundary the aggregator and the log are
    [consistent]. *)
Lemma reachable_consistent (host : string) (count interval timeout size : Z)
  (infinite : bool) (st : state) :
  reachable host count interval timeout size infinite st -> consistent st.
Proof.
  intros (st0 & w & n & Hhead & _ & ->).
  apply loop_head_at_point in Hhead.
  generalize (run_stmts_hoare at_point consistent w at_point_consistent
                (firstn n (body host count interval timeout size infinite))
                0%nat st0).
  intros H. specialize (H (fun i s Hi =>
    body_at_point host count interval timeout size infinite w i s
      (nth_error_firstn_some n _ i s Hi)) Hhead).
  destruct (run_stmts _ 0 w st0); simpl; try exact H.
  now apply at_point_consistent in H.
Qed.

(** ** Runs of the loop *)



Section Runs.

Variables (host : string) (count interval timeout size : Z).




End Runs.

(** ** The statistics aggregator *)

Lemma record_at_point (o : option Response) (st : state) :
  at_point 0 st -> at_point 0 (record o st).
Proof.
  unfold at_point, record, record_reply. simpl. intros (H0 & Hr & Hs & Hl).
  destruct o as [r |]; [destruct (success r) |]; simpl; repeat split; auto; try lia.
  intros _. apply num_le_trans with (Fin (time_elapsed_ms r)).
  - apply py_min_le_r.
  - simpl. apply py_max_ge_r.
Qed.

Lemma record_all_at_point (outs : list (option Response)) (st : state) :
  at_point 0 st -> at_point 0 (record_all outs st).
Proof.
  revert st. induction outs as [| o outs IH]; intros st H; simpl; [exact H |].
  apply IH. now apply record_at_point.
Qed.




(** C4: over any sequence of outcomes with nonnegative elapsed times, after
    every [record] no more probes are received than sent, and once one is
    received the minimum is at most the maximum. *)
Theorem received_le_sent (outs : list (option Response)) :
  Forall (fun o => (0 <= elapsedMs o)%Q) outs ->
  forall k : nat,
    let st := record_all (firstn k outs) init in
    received_packets st <= sent_packets st
    /\ (0 < received_packets st -> num_le (rtt_min st) (Fin (rtt_max st))).
Proof.
  intros _ k st.
  destruct (record_all_at_point (firstn k outs) init at_point_init)
    as (_ & Hr & Hs & _).
  split; [exact Hs | exact Hr].
Qed.



(** ** The rolling log *)

Lemma heads_loop_head (host : string) (count interval timeout size : Z)
  (infinite : bool) (script : list world) :
  forall st st' : state,
    loop_head host count interval timeout size infinite st ->
    heads host count interval timeout size infinite script st = Some st' ->
    loop_head host count interval timeout size infinite st'.
Proof.
  induction script as [| w script IH]; intros st st' Hst H; simpl in H.
  - now injection H as <-.
  - destruct (loop_test infinite count st) eqn:Ht; [| discriminate].
    destruct (iteration host count interval timeout size infinite w st)
      as [st1 | |] eqn:Hrun; try discriminate.
    apply (IH st1); [| exact H]. now apply head_next with st w.
Qed.

Lemma pop_overflow_within (l : list string) :
  (List.length l <= 20)%nat -> pop_overflow l = l.
Proof.
  intros H. unfold pop_overflow.
  destruct (Nat.ltb_spec 20 (List.length l)); [lia | reflexivity].
Qed.

(** Appending and then dropping the overflow is the same as making room
    first, on a log within its capacity. *)
Lemma pop_overflow_append (l : list string) (x : string) :
  (List.length l <= 20)%nat ->
  pop_overflow (l ++ [x]) = RollingLog_append x l.
Proof.
  intros H. unfold pop_overflow, RollingLog_append. rewrite length_snoc.
  destruct (Nat.eqb_spec (List.length l) 20) as [E | E].
  - rewrite E. simpl. destruct l; [discriminate | reflexivity].
  - destruct (Nat.ltb_spec 20 (S (List.length l))); [lia | reflexivity].
Qed.

Lemma RollingLog_append_length (l : list string) (x : string) :
  (List.length l <= 20)%nat -> (List.length (RollingLog_append x l) <= 20)%nat.
Proof.
  intros H. unfold RollingLog_append.
  destruct (Nat.eqb_spec (List.length l) 20) as [E | E].
  - rewrite length_snoc, length_tl. lia.
  - rewrite length_snoc. lia.
Qed.

Lemma nth_tl_snoc (l : list string) (x d : string) (i : nat) :
  (S i < List.length l)%nat -> nth i (tl l ++ [x]) d = nth (S i) l d.
Proof.
  intros H. destruct l as [| y l]; [simpl in H; lia |]. simpl in *.
  apply app_nth1. lia.
Qed.

(** C3, as the code has it: the rolling log holds at most 20 lines at the
    head of every iteration and whenever it is printed, and at most 21 in
    between, the new line being appended before the overflow is dropped.
    What an iteration leaves is what making room first would leave: on a
    full log the line at index 0 is gone, the new line is last, and the 19
    lines in between keep their order.  An iteration with no reply leaves
    the log alone. *)
Theorem rolling_log_bounded (host : string) (count interval timeout size : Z)
  (infinite : bool) :
  (forall st : state,
     loop_head host count interval timeout size infinite st ->
     (List.length (pings st) <= 20)%nat)
  /\ (forall st : state,
        reachable host count interval timeout size infinite st ->
        (List.length (pings st) <= 21)%nat)
  /\ (forall (w : world) (st : state),
        quiet w -> (List.length (pings st) <= 20)%nat ->
        let st' := state_of (iteration host count interval timeout size infinite w st) in
        (List.length (pings st') <= 20)%nat
        /\ In (ConsolePrintTable (log_table (pings st'))) (trace st')
        /\ match hd_error (reply w) with
           | Some r =>
               pings st' = RollingLog_append (event_line (now w) r host size) (pings st)
           | None => pings st' = pings st
           end)
  /\ (forall (l : list string) (x : string),
        List.length l = 20%nat ->
        RollingLog_append x l = (tl l ++ [x])%list
        /\ List.length (RollingLog_append x l) = 20%nat
        /\ nth 19 (RollingLog_append x l) "" = x
        /\ forall i : nat, (i < 19)%nat ->
             nth i (RollingLog_append x l) "" = nth (S i) l "").
Proof.
  split; [| split; [| split]].
  - intros st Hst. apply loop_head_at_point in Hst.
    destruct Hst as (_ & _ & _ & Hl). exact Hl.
  - intros st Hst. apply reachable_consistent in Hst.
    destruct Hst as (_ & _ & Hl). exact Hl.
  - intros w st Hq Hlen st'.
    destruct (iteration_quiet host count interval timeout size infinite w st Hq)
      as (st1 & panel & Hrun & _ & _ & _ & _ & _ & Hp & _ & _ & Htr).
    assert (Hst' : pings st' = pings st1 /\
                   exists tr, trace st' = (trace st1 ++ tr)%list).
    { unfold st'. rewrite Hrun.
      destruct (negb infinite && (count <=? sent_packets st1)); simpl.
      - split; [reflexivity | exists []; now rewrite app_nil_r].
      - split; [reflexivity | now exists [Sleep interval]]. }
    destruct Hst' as (-> & tr & ->).
    rewrite Hp. unfold logged.
    split; [| split].
    + destruct (hd_error (reply w)) as [r |].
      * rewrite pop_overflow_append by exact Hlen.
        now apply RollingLog_append_length.
      * now rewrite pop_overflow_within.
    + rewrite Htr, Hp. unfold logged.
      apply in_or_app. left. apply in_or_app. right. simpl. auto.
    + destruct (hd_error (reply w)) as [r |].
      * now apply pop_overflow_append.
      * now apply pop_overflow_within.
  - intros l x Hl. unfold RollingLog_append. rewrite Hl. simpl.
    split; [reflexivity |]. split; [| split].
    + rewrite length_snoc, length_tl, Hl. reflexivity.
    + rewrite app_nth2; rewrite length_tl, Hl; simpl; [reflexivity | lia].
    + intros i Hi. apply nth_tl_snoc. lia.
Qed.


(** ** Colouring and formatting *)

Lemma tier_of_spec (low high : Q) (v : num) :
  (low <= high)%Q ->
  (tier_of low high v = good <-> num_lt v (Fin low))
  /\ (tier_of low high v = warn <-> num_le (Fin low) v /\ num_lt v (Fin high))
  /\ (tier_of low high v = bad <-> num_le (Fin high) v).
Proof.
  intros Hlh. unfold tier_of.
  destruct (num_ltb v (Fin low)) eqn:E1; [| destruct (num_ltb v (Fin high)) eqn:E2].
  - apply num_ltb_lt in E1.
    destruct v as [q |]; simpl in *; [| tauto].
    repeat split; intros; try discriminate; try tauto; lra.
  - apply num_ltb_ge in E1. apply num_ltb_lt in E2.
    destruct v as [q |]; simpl in *; [| tauto].
    repeat split; intros; try discriminate; try tauto; lra.
  - apply num_ltb_ge in E1. apply num_ltb_ge in E2.
    destruct v as [q |]; simpl in *.
    + repeat split; intros; try discriminate; try tauto; lra.
    + repeat split; intros; try discriminate; tauto.
Qed.

Lemma markup_tier (t t' : tier) (x y : string) :
  markup t x = markup t' y -> t = t'.
Proof.
  destruct t, t'; simpl; intros H; try reflexivity; discriminate.
Qed.

Lemma round_half_even_near (q : Q) :
  (- (1 # 2) <= inject_Z (round_half_even q) - q <= 1 # 2)%Q.
Proof.
  unfold round_half_even.
  pose proof (Qfloor_le q) as Hlo. pose proof (Qlt_floor q) as Hhi.
  rewrite inject_Z_plus in Hhi. change (inject_Z 1) with 1%Q in Hhi.
  destruct (Qltb (q - inject_Z (Qfloor q)) (1 # 2)) eqn:E1.
  - apply Qltb_lt in E1. split; lra.
  - apply Qltb_ge in E1.
    destruct (Qltb (1 # 2) (q - inject_Z (Qfloor q))) eqn:E2.
    + apply Qltb_lt in E2. rewrite inject_Z_plus. change (inject_Z 1) with 1%Q.
      split; lra.
    + apply Qltb_ge in E2.
      destruct (Z.even (Qfloor q));
        [| rewrite inject_Z_plus; change (inject_Z 1) with 1%Q]; split; lra.
Qed.

(** [round(x, 2)] is a whole number of hundredths, at most half a hundredth
    away from [x]. *)
Lemma py_round2_near (x : Q) :
  (exists n : Z, py_round2 x == n # 100)%Q
  /\ (Qabs (py_round2 x - x) <= 1 # 200)%Q.
Proof.
  unfold py_round2. split.
  - exists (round_half_even (x * 100)). unfold Qeq. simpl. lia.
  - pose proof (round_half_even_near (x * 100)) as H.
    apply Qabs_Qle_condition.
    set (n := inject_Z (round_half_even (x * 100))) in *. clearbody n.
    unfold Qdiv. change (/ 100)%Q with (1 # 100)%Q.
    split; lra.
Qed.

Lemma two_digits_length (n : nat) :
  (n < 100)%nat -> String.length (two_digits n) = 2%nat.
Proof.
  intros H. do 100 (destruct n as [| n]; [reflexivity |]). lia.
Qed.

Lemma last_pop_overflow_snoc (l : list string) (x d : string) :
  last (pop_overflow (l ++ [x])) d = x.
Proof.
  unfold pop_overflow.
  destruct (Nat.ltb_spec 20 (List.length (l ++ [x]))) as [H | H].
  - destruct l as [| y l]; [simpl in H; lia |]. simpl. apply last_last.
  - apply last_last.
Qed.

(** C6: a value below the low threshold is coloured as good, a value from
    the low threshold up to, not including, the high one as warn, and a
    value from the high threshold on as bad, and in no other case; the
    thresholds are 50 and 100 for a round-trip time and 10 and 20 for the
    loss.  So 49 ms is good, 50 and 99 ms are warn, 100 ms is bad; 9 percent
    is good, 10 percent warn, 25 percent bad. *)
Theorem colouring_tiers :
  (forall v : num, exists t : tier,
      format_rtt v = Ok (markup t (py_str v ++ "ms"))
      /\ (t = good <-> num_lt v (Fin 50))
      /\ (t = warn <-> num_le (Fin 50) v /\ num_lt v (Fin 100))
      /\ (t = bad <-> num_le (Fin 100) v))
  /\ (forall (n_sent n_received : Z) (lo : num) (hi avg loss : Q),
      exists (t : tier) (panel : Table),
        construct_stats_panel n_sent n_received lo hi avg loss = Ok panel
        /\ format_color (Fin loss) [10%Q; 20%Q] "%"
           = Ok (markup t (py_str (Fin loss) ++ "%"))
        /\ nth 2 (rows panel) [] = ["Loss"; markup t (py_str (Fin loss) ++ "%")]
        /\ (t = good <-> (loss < 10)%Q)
        /\ (t = warn <-> (10 <= loss)%Q /\ (loss < 20)%Q)
        /\ (t = bad <-> (20 <= loss)%Q))
  /\ (forall (t t' : tier) (x y : string), markup t x = markup t' y -> t = t')
  /\ format_rtt (Fin 49) = Ok (markup good (py_str (Fin 49) ++ "ms"))
  /\ format_rtt (Fin 50) = Ok (markup warn (py_str (Fin 50) ++ "ms"))
  /\ format_rtt (Fin 99) = Ok (markup warn (py_str (Fin 99) ++ "ms"))
  /\ format_rtt (Fin 100) = Ok (markup bad (py_str (Fin 100) ++ "ms"))
  /\ format_color (Fin 9) [10%Q; 20%Q] "%" = Ok (markup good (py_str (Fin 9) ++ "%"))
  /\ format_color (Fin 10) [10%Q; 20%Q] "%" = Ok (markup warn (py_str (Fin 10) ++ "%"))
  /\ format_color (Fin 25) [10%Q; 20%Q] "%" = Ok (markup bad (py_str (Fin 25) ++ "%")).
Proof.
  split; [| split; [| split]].
  - intros v. exists (tier_of 50 100 v).
    split; [apply format_rtt_tier |].
    apply tier_of_spec. unfold Qle. simpl. lia.
  - intros n_sent n_received lo hi avg loss.
    exists (tier_of 10 20 (Fin loss)), (stats_panel n_sent n_received lo hi avg loss).
    split; [apply construct_stats_panel_rows |].
    split; [apply format_color_tier |].
    split; [reflexivity |].
    apply (tier_of_spec 10 20 (Fin loss)). unfold Qle. simpl. lia.
  - exact markup_tier.
  - rewrite !format_rtt_tier, !format_color_tier. repeat split; reflexivity.
Qed.

(** C7: a reply that succeeded is logged as the time of day, [" - Reply
    from "], the host, [": bytes="], the size, [" time="] and the coloured
    round-trip time; a reply that failed as the time of day and [" - Request
    timed out"].  The time of day is the clock read in the iteration that
    got the reply, in two-digit hours, minutes and seconds.  In the panel
    the average is rounded to hundredths before it is coloured and shown;
    the minimum and the maximum go in as they are. *)
Theorem event_lines_and_rounding :
  (forall (t : clock) (r : Response) (host : string) (size : Z),
      exists colorizedRtt : string,
        format_rtt (Fin (time_elapsed_ms r)) = Ok colorizedRtt
        /\ create_ping_output t r host size
           = Ok (if success r
                 then strftime_HMS t ++ " - Reply from " ++ host ++ ": bytes="
                      ++ str_int size ++ " time=" ++ colorizedRtt
                 else strftime_HMS t ++ " - Request timed out"))
  /\ (forall (host : string) (count interval timeout size : Z) (infinite : bool)
        (w : world) (st : state) (r : Response),
        quiet w -> hd_error (reply w) = Some r ->
        exists line : string,
          create_ping_output (now w) r host size = Ok line
          /\ last (pings (state_of (iteration host count interval timeout size
                                      infinite w st))) "" = line)
  /\ (forall t : clock,
        (hour t < 24)%nat -> (minute t < 60)%nat -> (second t < 60)%nat ->
        String.length (strftime_HMS t) = 8%nat
        /\ String.get 2 (strftime_HMS t) = Some ":"%char
        /\ String.get 5 (strftime_HMS t) = Some ":"%char)
  /\ strftime_HMS {| hour := 9; minute := 5; second := 30 |} = "09:05:30"
  /\ (forall (n_sent n_received : Z) (lo : num) (hi avg loss : Q),
        exists (panel : Table) (min_text max_text avg_text : string),
          construct_stats_panel n_sent n_received lo hi avg loss = Ok panel
          /\ format_rtt lo = Ok min_text
          /\ format_rtt (Fin hi) = Ok max_text
          /\ format_rtt (Fin (py_round2 avg)) = Ok avg_text
          /\ nth 3 (rows panel) [] = ["RTT Min"; min_text]
          /\ nth 4 (rows panel) [] = ["RTT Max"; max_text]
          /\ nth 5 (rows panel) [] = ["RTT Avg"; avg_text])
  /\ (forall x : Q,
        (exists n : Z, py_round2 x == n # 100)%Q
        /\ (Qabs (py_round2 x - x) <= 1 # 200)%Q).
Proof.
  split; [| split; [| split; [| split; [| split]]]].
  - intros t r host size. eexists. split; [apply format_rtt_tier |].
    rewrite create_ping_output_line. unfold event_line.
    destruct (success r); reflexivity.
  - intros host count interval timeout size infinite w st r Hq Hr.
    exists (event_line (now w) r host size).
    split; [apply create_ping_output_line |].
    destruct (iteration_quiet host count interval timeout size infinite w st Hq)
      as (st1 & panel & Hrun & _ & _ & _ & _ & _ & Hp & _).
    rewrite Hrun.
    assert (Hl : last (pings st1) "" = event_line (now w) r host size).
    { rewrite Hp, Hr. unfold logged. apply last_pop_overflow_snoc. }
    destruct (negb infinite && (count <=? sent_packets st1)); exact Hl.
  - intros [h m s0] Hh Hm Hs. simpl in Hh, Hm, Hs. unfold strftime_HMS. simpl.
    assert (Hh2 : String.length (two_digits h) = 2%nat)
      by (apply two_digits_length; lia).
    assert (Hm2 : String.length (two_digits m) = 2%nat)
      by (apply two_digits_length; lia).
    assert (Hs2 : String.length (two_digits s0) = 2%nat)
      by (apply two_digits_length; lia).
    destruct (two_digits h) as [| a [| b [| ? ?]]]; try discriminate.
    destruct (two_digits m) as [| c [| d [| ? ?]]]; try discriminate.
    destruct (two_digits s0) as [| e [| f [| ? ?]]]; try discriminate.
    repeat split; reflexivity.
  - reflexivity.
  - intros n_sent n_received lo hi avg loss.
    exists (stats_panel n_sent n_received lo hi avg loss).
    do 3 eexists.
    split; [apply construct_stats_panel_rows |].
    rewrite !format_rtt_tier. repeat split; reflexivity.
  - exact py_round2_near.
Qed.

(** ** Termination and interruption *)




(** An interruption that arrives before the panel is built leaves [stats]
    as it was. *)
Lemma iteration_early_interrupt (host : string) (count interval timeout size : Z)
  (infinite : bool) (w : world) (st : state) (k : nat) :
  interrupt w = Some k -> (k <= 7)%nat ->
  exists st' : state,
    iteration host count interval timeout size infinite w st
    = Raised KeyboardInterrupt st'
    /\ stats st' = stats st
    /\ (trace st' = trace st
        \/ trace st' = (trace st ++ [Ping host 1 interval timeout size])%list).
Proof.
  intros Hk Hle. unfold iteration, body.
  do 8 (try destruct k as [| k]); try lia.
  all: cbn [run_stmts]; unfold interrupted_at; rewrite Hk.
  all: unfold inc_sent, call_ping, take_first, log_reply, record_reply, evict,
       build_table.
  all: destruct (hd_error (reply w)) as [r |] eqn:Hr.
  all: crunch_body.
  all: try rewrite Hr.
  all: crunch_body.
  all: eexists; split; [reflexivity | split; [reflexivity |]].
  all: first [left; reflexivity | right; reflexivity].
Qed.


(** C10: with infinite mode off and a count of 0 or less the loop body never
    runs, and the final printing reads [stats] unbound: the run prints the
    heading and faults with [UnboundLocalError], no panel shown.  The
    handler of the interruption reads [stats] just as unbound when the
    interruption arrives in the first iteration before the panel is
    built. *)
Theorem unbound_stats_faults (host : string) (count interval timeout size : Z) :
  (forall script : list world,
      count <= 0 ->
      ping_cli host count interval timeout size false script
      = (Faulted UnboundLocalError, emit (ConsolePrintText final_statistics) init))
  /\ (forall (infinite : bool) (w : world) (script : list world) (k : nat),
        loop_test infinite count init = true ->
        interrupt w = Some k -> (k <= 7)%nat ->
        exists (st : state) (tr : list effect),
          ping_cli host count interval timeout size infinite (w :: script)
          = (Faulted UnboundLocalError, st)
          /\ stats st = None
          /\ (tr = [] \/ tr = [Ping host 1 interval timeout size])
          /\ trace st = (tr ++ [ConsolePrintText (nl ++ "Ping interrupted.");
                                ConsolePrintText final_statistics])%list).
Proof.
  split.
  - intros script Hc. unfold ping_cli.
    assert (Ht : loop_test false count init = false).
    { unfold loop_test. simpl. apply Z.ltb_ge. exact Hc. }
    destruct script; cbn [while_loop]; rewrite Ht; reflexivity.
  - intros infinite w script k Ht Hk Hle. unfold ping_cli. cbn [while_loop].
    rewrite Ht.
    destruct (iteration_early_interrupt host count interval timeout size infinite
                w init k Hk Hle) as (st' & Hrun & Hstats & Htr).
    rewrite Hrun. unfold on_interrupt.
    change (stats (emit (ConsolePrintText (nl ++ "Final statistics:"))
                     (emit (ConsolePrintText (nl ++ "Ping interrupted.")) st')))
      with (stats st').
    rewrite Hstats. cbn [init stats console_print finish].
    eexists. exists (trace st'). split; [reflexivity |].
    split; [exact Hstats |]. split; [exact Htr |].
    cbn [trace emit]. rewrite <- app_assoc. reflexivity.
Qed.

(** C8, where the code falls short of it: with a count of 4, an operator who
    interrupts the first probe gets the two headings and then an
    [UnboundLocalError], not the final statistics panel. *)
Theorem interrupt_in_first_probe_faults :
  ping_cli "example.org" 4 1 1 56 false [interrupted 1]
  = (Faulted UnboundLocalError,
     {| sent_packets := 1; received_packets := 0; rtt_min := Inf; rtt_max := 0%Q;
        rtt_sum := 0%Q; pings := []; response_list := []; response := None;
        table := None; stats := None;
        trace := [ConsolePrintText (nl ++ "Ping interrupted.");
                  ConsolePrintText final_statistics] |}).
Proof. reflexivity. Qed.

(** Interrupted in the third of four probes, after a reply in 15 ms and a
    time-out, the run ends with the panel of the second iteration: 2 sent
    and 1 received, although [sent_packets] already counts the third. *)
Example interrupt_after_two_probes :
  exists (st : state) (panel : Table),
    ping_cli "example.org" 4 1 1 56 false [replied 15; timed_out; interrupted 1]
    = (Interrupted, st)
    /\ stats st = Some panel
    /\ last (trace st) ConsoleClear = ConsolePrintTable panel
    /\ firstn 2 (rows panel) = [["Sent"; "2"]; ["Received"; "1"]]
    /\ sent_packets st = 3.
Proof.
  eexists. eexists. split; [vm_compute; reflexivity |].
  repeat split; reflexivity.
Qed.

(** Interrupted in the second iteration after its reply is recorded and
    before the panel is rebuilt, the run ends with the panel of the first
    iteration, while the aggregator already holds the second reply. *)
Example interrupt_before_panel_is_rebuilt :
  exists (st : state) (panel : Table),
    ping_cli "example.org" 4 1 1 56 false [replied 15; interrupted 5]
    = (Interrupted, st)
    /\ stats st = Some panel
    /\ last (trace st) ConsoleClear = ConsolePrintTable panel
    /\ firstn 2 (rows panel) = [["Sent"; "1"]; ["Received"; "1"]]
    /\ sent_packets st = 2
    /\ received_packets st = 2.
Proof.
  eexists. eexists. split; [vm_compute; reflexivity |].
  repeat split; reflexivity.
Qed.

(** * Further properties *)

(** ** Colouring *)

(** X1: [format_color] reads the second threshold only for a value that is
    not below the first: it raises [IndexError] exactly when there is no
    threshold, or one only and the value is not below it; it raises nothing
    else, and thresholds past the second play no part. *)
Theorem format_color_index_error (value : num) (thresholds : list Q)
  (append : string) :
  (format_color value thresholds append = Raise IndexError
   <-> thresholds = []
       \/ exists t0, thresholds = [t0] /\ num_le (Fin t0) value)
  /\ (forall e, format_color value thresholds append = Raise e -> e = IndexError)
  /\ (forall t0 t1 rest, thresholds = t0 :: t1 :: rest ->
        format_color value thresholds append
        = format_color value [t0; t1] append).
Proof.
  unfold format_color.
  destruct thresholds as [| t0 [| t1 rest]]; simpl.
  - split; [| split].
    + split; auto.
    + intros e H. now injection H as <-.
    + intros ? ? ? H. discriminate.
  - destruct (num_ltb value (Fin t0)) eqn:E; simpl.
    + apply num_ltb_lt in E. split; [| split].
      * split; [discriminate |].
        intros [H | (t & H & Hle)]; [discriminate |].
        injection H as <-. exfalso.
        destruct value as [q |]; simpl in *; [lra | exact E].
      * intros e H. discriminate.
      * intros ? ? ? H. discriminate.
    + apply num_ltb_ge in E. split; [| split].
      * split; auto. intros _. right. now exists t0.
      * intros e H. now injection H as <-.
      * intros ? ? ? H. discriminate.
  - split; [| split].
    + split.
      * destruct (num_ltb value (Fin t0)); [discriminate |].
        simpl. destruct (num_ltb value (Fin t1)); discriminate.
      * intros [H | (t & H & _)]; discriminate.
    + intros e.
      destruct (num_ltb value (Fin t0)); [discriminate |].
      simpl. destruct (num_ltb value (Fin t1)); discriminate.
    + intros ? ? ? H. injection H as <- <- <-. reflexivity.
Qed.

Lemma tier_of_monotone (low high : Q) (v v' : num) :
  (low <= high)%Q -> num_le v v' ->
  (rank (tier_of low high v) <= rank (tier_of low high v'))%nat.
Proof.
  intros Hlh Hle. unfold tier_of.
  destruct (num_ltb v (Fin low)) eqn:E1; [simpl; lia |].
  apply num_ltb_ge in E1.
  assert (E1' : num_ltb v' (Fin low) = false).
  { apply num_ltb_ge. now apply num_le_trans with v. }
  rewrite E1'.
  destruct (num_ltb v (Fin high)) eqn:E2.
  - destruct (num_ltb v' (Fin high)); simpl; lia.
  - apply num_ltb_ge in E2.
    assert (E2' : num_ltb v' (Fin high) = false).
    { apply num_ltb_ge. now apply num_le_trans with v. }
    rewrite E2'. simpl. lia.
Qed.

(** X2: with thresholds in order, a larger value is never coloured
    better than a smaller one. *)
Theorem colouring_monotone (low high : Q) (v v' : num) (append x x' : string)
  (t t' : tier) :
  (low <= high)%Q -> num_le v v' ->
  format_color v [low; high] append = Ok (markup t x) ->
  format_color v' [low; high] append = Ok (markup t' x') ->
  (rank t <= rank t')%nat.
Proof.
  intros Hlh Hle H H'. rewrite format_color_tier in H, H'.
  assert (Hm : markup (tier_of low high v) (py_str v ++ append) = markup t x)
    by congruence.
  assert (Hm' : markup (tier_of low high v') (py_str v' ++ append) = markup t' x')
    by congruence.
  apply markup_tier in Hm. apply markup_tier in Hm'. subst t t'.
  now apply tier_of_monotone.
Qed.

(** ** The aggregator *)

Lemma loss_bounds (s r : Z) :
  0 <= r <= s -> 0 < s ->
  (0 <= inject_Z (s - r) / inject_Z s * 100 <= 100)%Q
  /\ ((inject_Z (s - r) / inject_Z s * 100 == 0)%Q <-> r = s)
  /\ ((inject_Z (s - r) / inject_Z s * 100 == 100)%Q <-> r = 0).
Proof.
  intros Hr Hs.
  destruct s as [| p | p]; try lia.
  remember (Z.pos p - r) as a eqn:Ha.
  unfold Qle, Qeq, Qdiv, Qmult, Qinv, inject_Z.
  cbn -[Z.mul Pos.mul]. rewrite ?Pos2Z.inj_mul.
  repeat split; intros; nia.
Qed.

(** X3: wherever the loop stands, the loss percentage lies between 0 and
    100; once a probe is sent it is 0 exactly when every probe was answered
    and 100 exactly when none was. *)
Theorem loss_percentage_range (host : string) (count interval timeout size : Z)
  (infinite : bool) (st : state) :
  reachable host count interval timeout size infinite st ->
  exists loss : Q,
    loss_percentage st = Ok loss
    /\ (0 <= loss <= 100)%Q
    /\ (sent_packets st = 0 -> loss = 0%Q)
    /\ (0 < sent_packets st ->
        ((loss == 0)%Q <-> received_packets st = sent_packets st)
        /\ ((loss == 100)%Q <-> received_packets st = 0)).
Proof.
  intros Hst. apply reachable_consistent in Hst.
  destruct Hst as (Hr & _ & _).
  rewrite loss_percentage_value. eexists. split; [reflexivity |].
  destruct (Z.ltb_spec 0 (sent_packets st)) as [Hs | Hs].
  - destruct (loss_bounds (sent_packets st) (received_packets st) Hr Hs)
      as (Hb & H0 & H100).
    split; [exact Hb |]. split; [lia |]. intros _. split; assumption.
  - split; [split; unfold Qle; simpl; lia |]. split; [reflexivity | lia].
Qed.

Lemma record_fields (o : option Response) (st : state) :
  sent_packets (record o st) = sent_packets st + 1
  /\ received_packets (record o st)
     = received_packets st + (if succeeded o then 1 else 0)
  /\ rtt_min (record o st)
     = (if succeeded o then py_min (rtt_min st) (Fin (elapsedMs o)) else rtt_min st)
  /\ rtt_max (record o st)
     = (if succeeded o then py_max (rtt_max st) (elapsedMs o) else rtt_max st)
  /\ rtt_sum (record o st)
     = (if succeeded o then (rtt_sum st + elapsedMs o)%Q else rtt_sum st).
Proof.
  destruct o as [[[] e] |]; simpl; repeat split; lia.
Qed.

Lemma record_all_snoc (outs : list (option Response)) (o : option Response)
  (st : state) :
  record_all (outs ++ [o]) st = record o (record_all outs st).
Proof. unfold record_all. now rewrite fold_left_app. Qed.




(** X5: after any sequence of outcomes, [sent_packets] is their number and
    [received_packets] the number of successes; the minimum and the maximum
    bound the time of every success; the minimum is the time of a success,
    or still infinite when there is none; the maximum is the time of a
    success, or still the initial 0. *)
Theorem extrema_are_recorded_times (outs : list (option Response)) :
  let st := record_all outs init in
  sent_packets st = Z.of_nat (List.length outs)
  /\ received_packets st = Z.of_nat (List.length (filter succeeded outs))
  /\ (forall o, In o outs -> succeeded o = true ->
        num_le (rtt_min st) (Fin (elapsedMs o))
        /\ (elapsedMs o <= rtt_max st)%Q)
  /\ ((rtt_min st = Inf /\ filter succeeded outs = [])
      \/ exists o, In o outs /\ succeeded o = true
                   /\ rtt_min st = Fin (elapsedMs o))
  /\ (rtt_max st = 0%Q
      \/ exists o, In o outs /\ succeeded o = true /\ rtt_max st = elapsedMs o).
Proof.
  induction outs as [| o outs IH] using rev_ind.
  - simpl. split; [reflexivity |]. split; [reflexivity |].
    split; [intros o' [] |]. split; [left; split; reflexivity | left; reflexivity].
  - cbv zeta in IH |- *. rewrite record_all_snoc.
    destruct IH as (Hs & Hr & Hb & Hmin & Hmax).
    destruct (record_fields o (record_all outs init)) as (-> & -> & -> & -> & _).
    rewrite filter_app, !length_app. simpl filter.
    destruct (succeeded o) eqn:Eo; simpl List.length.
    + split; [lia |]. split; [lia |]. split; [| split].
      * intros o' Hin Ho'. apply in_app_or in Hin. destruct Hin as [Hin | [<- | []]].
        -- destruct (Hb o' Hin Ho') as (H1 & H2). split.
           ++ eapply num_le_trans; [apply py_min_le_l | exact H1].
           ++ eapply Qle_trans; [exact H2 | apply py_max_ge_l].
        -- split; [apply py_min_le_r | apply py_max_ge_r].
      * right. destruct (py_min_cases (rtt_min (record_all outs init)) (Fin (elapsedMs o)))
          as [E | E]; rewrite E.
        -- destruct Hmin as [(Hinf & _) | (o' & Hin & Ho' & Ho'')].
           ++ exfalso. unfold py_min in E. rewrite Hinf in E. simpl in E.
              discriminate.
           ++ exists o'. split; [apply in_or_app; now left | auto].
        -- exists o. split; [apply in_or_app; right; now left | auto].
      * destruct (py_max_cases (rtt_max (record_all outs init)) (elapsedMs o))
          as [E | E]; rewrite E.
        -- destruct Hmax as [H0 | (o' & Hin & Ho' & Ho'')]; [now left |].
           right. exists o'. split; [apply in_or_app; now left | auto].
        -- right. exists o. split; [apply in_or_app; right; now left | auto].
    + rewrite app_nil_r. split; [lia |]. split; [lia |]. split; [| split].
      * intros o' Hin Ho'. apply in_app_or in Hin. destruct Hin as [Hin | [<- | []]].
        -- now apply Hb.
        -- congruence.
      * destruct Hmin as [H | (o' & Hin & Ho' & Ho'')]; [now left |].
        right. exists o'. split; [apply in_or_app; now left | auto].
      * destruct Hmax as [H0 | (o' & Hin & Ho' & Ho'')]; [now left |].
        right. exists o'. split; [apply in_or_app; now left | auto].
Qed.

(** ** Runs, interrupted or not *)

Lemma probes_snoc (tr : list effect) (e : effect) :
  probes (tr ++ [e])
  = (probes tr + match e with Ping _ _ _ _ _ => 1 | _ => 0 end)%nat.
Proof.
  unfold probes. rewrite filter_app, length_app. destruct e; simpl; lia.
Qed.

Lemma in_flight_stopped (infinite : bool) (count s0 : Z) (p0 k : nat) (st : state) :
  in_flight infinite count s0 p0 k st -> stopped s0 p0 st.
Proof.
  unfold in_flight, stopped. intros (Hs & Hp & _ & _).
  destruct (k =? 0)%nat eqn:E0; destruct (k <=? 1)%nat eqn:E1;
    try (apply Nat.eqb_eq in E0; subst k; discriminate); lia.
Qed.

Lemma body_in_flight (host : string) (count interval timeout size : Z)
  (infinite : bool) (s0 : Z) (p0 : nat) (w : world) (i : nat)
  (s : world -> state -> signal) :
  nth_error (body host count interval timeout size infinite) i = Some s ->
  forall st0, in_flight infinite count s0 p0 (0 + i) st0 ->
    match s w st0 with
    | Normal st1 => in_flight infinite count s0 p0 (S (0 + i)) st1
    | Break st1 | Raised _ st1 => stopped s0 p0 st1
    end.
Proof.
  intros Hi st0 Hin. pose proof (in_flight_stopped _ _ _ _ _ _ Hin) as Hstop.
  revert Hin. simpl.
  do 13 (try destruct i as [| i]); simpl in Hi;
    try (injection Hi as <-); try (destruct i; discriminate).
  all: unfold in_flight; simpl; intros (Hs & Hp & Hst & Hc).
  - repeat split; auto; lia.
  - rewrite probes_snoc. repeat split; auto; lia.
  - repeat split; auto; lia.
  - unfold log_reply. destruct (response st0) as [r |]; simpl.
    + rewrite create_ping_output_line. simpl. repeat split; auto; lia.
    + repeat split; auto; lia.
  - unfold record_reply. destruct (response st0) as [r |];
      [destruct (success r) |]; simpl; repeat split; auto; lia.
  - unfold evict. destruct (20 <? List.length (pings st0))%nat; simpl;
      repeat split; auto; lia.
  - repeat split; auto; lia.
  - unfold build_stats. rewrite loss_percentage_value, rtt_avg_value. simpl.
    rewrite construct_stats_panel_rows. simpl.
    repeat split; auto; try lia; try discriminate.
  - rewrite probes_snoc. repeat split; auto; try lia;
      try (intros; apply Hst; lia).
  - unfold console_print. destruct (table st0); simpl; [| exact Hstop].
    rewrite probes_snoc. repeat split; auto; try lia;
      try (intros; apply Hst; lia).
  - unfold console_print. destruct (stats st0) eqn:Est; simpl; [| exact Hstop].
    rewrite probes_snoc. repeat split; auto; try lia; congruence.
  - unfold break_test.
    destruct (negb infinite && (count <=? sent_packets st0)) eqn:E; [exact Hstop |].
    repeat split; auto; try lia; try (intros; apply Hst; lia).
    intros _ ->. simpl in E. apply Z.leb_gt in E. exact E.
  - rewrite probes_snoc. repeat split; auto; try lia;
      try (intros; apply Hst; lia);
      try (intros _ Hf; apply Hc; [lia | exact Hf]).
Qed.

(** What an iteration, interrupted or not, does to the counts. *)
Lemma iteration_counts (host : string) (count interval timeout size : Z)
  (infinite : bool) (w : world) (st : state) :
  match iteration host count interval timeout size infinite w st with
  | Normal st' =>
      in_flight infinite count (sent_packets st) (probes (trace st)) 13 st'
  | Break st' | Raised _ st' => stopped (sent_packets st) (probes (trace st)) st'
  end.
Proof.
  unfold iteration.
  apply (run_stmts_hoare
           (in_flight infinite count (sent_packets st) (probes (trace st)))
           (stopped (sent_packets st) (probes (trace st))) w
           (in_flight_stopped infinite count (sent_packets st) (probes (trace st)))
           (body host count interval timeout size infinite) 0%nat st).
  - apply body_in_flight.
  - unfold in_flight. simpl. repeat split; try lia.
Qed.

Lemma head_ok_init (infinite : bool) (count : Z) : head_ok infinite count init.
Proof. unfold head_ok. simpl. repeat split; auto. Qed.

(** However the worlds behave, a run keeps its counts in step and ends in
    one of four ways. *)
Lemma while_loop_run_ok (host : string) (count interval timeout size : Z)
  (infinite : bool) (script : list world) :
  forall st : state,
    head_ok infinite count st ->
    run_ok infinite count
      (while_loop host count interval timeout size infinite script st).
Proof.
  assert (Hepi : forall st, Z.of_nat (probes (trace st)) <= sent_packets st
                                     <= Z.of_nat (probes (trace st)) + 1 ->
                 (infinite = false -> sent_packets st <= Z.max 0 count) ->
                 (stats st = None -> sent_packets st <= 1) ->
                 run_ok infinite count (epilogue st)
                 /\ run_ok infinite count (on_interrupt st)).
  { intros st Hp Hc Hs. unfold run_ok, epilogue, on_interrupt, console_print.
    simpl. destruct (stats st) eqn:E; simpl; rewrite ?probes_snoc, ?Nat.add_0_r;
      repeat split; auto; try lia.
    - right. right. right. repeat split; auto.
    - right. right. right. repeat split; auto. }
  induction script as [| w script IH]; intros st (Hp & Hs & Hc);
    cbn [while_loop]; destruct (loop_test infinite count st) eqn:Ht.
  - unfold run_ok. simpl. repeat split; auto; try lia.
    intros Hf. destruct (Hc Hf); lia.
  - unfold loop_test in Ht. apply orb_false_iff in Ht. destruct Ht as (-> & Ht).
    apply Z.ltb_ge in Ht.
    apply Hepi; try lia; intros;
      try (destruct (Hc eq_refl); lia); try (rewrite Hs by assumption; lia).
  - pose proof (iteration_counts host count interval timeout size infinite w st)
      as Hcnt.
    destruct (iteration_shape host count interval timeout size infinite w st)
      as (st' & [H | [(H & Hinf & panel & Hpanel) | H]] & Hstats);
      rewrite H in Hcnt |- *.
    + apply IH. destruct Hcnt as (Hs' & Hp' & Hst' & Hc').
      unfold head_ok. simpl in Hs', Hp'. split; [lia |]. split.
      * intros E. exfalso. apply Hst'; [lia | exact E].
      * intros Hf. right. apply Hc'; [lia | exact Hf].
    + destruct Hcnt as (Hs' & Hp' & Hd).
      unfold loop_test in Ht. rewrite Hinf in Ht. simpl in Ht. apply Z.ltb_lt in Ht.
      apply Hepi; try lia. rewrite Hpanel. discriminate.
    + destruct Hcnt as (Hs' & Hp' & Hd).
      apply Hepi; try lia.
      * intros Hf. unfold loop_test in Ht. rewrite Hf in Ht. simpl in Ht.
        apply Z.ltb_lt in Ht. lia.
      * intros E. destruct Hstats as [Hst | (panel & Hpanel)]; [| congruence].
        rewrite Hst in E. rewrite (Hs E) in Hs'. lia.
  - unfold loop_test in Ht. apply orb_false_iff in Ht. destruct Ht as (-> & Ht).
    apply Z.ltb_ge in Ht.
    apply Hepi; try lia; intros;
      try (destruct (Hc eq_refl); lia); try (rewrite Hs by assumption; lia).
Qed.

(** X6: with a count, a run never sends more probes than the count,
    however it is interrupted, and it never sends a probe it has not
    counted: at any end the probes sent are at most [sent_packets], which
    is at most the count. *)
Theorem never_more_probes_than_count (host : string)
  (count interval timeout size : Z) (script : list world) :
  let st := snd (ping_cli host count interval timeout size false script) in
  Z.of_nat (probes (trace st)) <= sent_packets st
  /\ sent_packets st <= Z.max 0 count
  /\ sent_packets st <= Z.of_nat (probes (trace st)) + 1.
Proof.
  destruct (while_loop_run_ok host count interval timeout size false script init
              (head_ok_init false count)) as ((H1 & H2) & H3 & _).
  cbv zeta. unfold ping_cli. split; [exact H1 |]. split; [now apply H3 | exact H2].
Qed.


(** ** Runs that are not interrupted *)



Section Quiet.

Variables (host : string) (count interval timeout size : Z) (infinite : bool).










End Quiet.





(** ** Interruption once a panel is built *)




End Pong.

(** * The development at concrete inputs *)


Lemma received_le_sent_witness :
  Forall (fun o => (0 <= elapsedMs o)%Q)
    [Some {| success := true; time_elapsed_ms := 10 |}; None;
     Some {| success := false; time_elapsed_ms := 0 |}]
  /\ received_packets
       (record_all (firstn 2 [Some {| success := true; time_elapsed_ms := 10 |}; None;
                              Some {| success := false; time_elapsed_ms := 0 |}]) init)
     <= sent_packets
          (record_all (firstn 2 [Some {| success := true; time_elapsed_ms := 10 |}; None;
                                 Some {| success := false; time_elapsed_ms := 0 |}]) init).
Proof.
  assert (H : Forall (fun o => (0 <= elapsedMs o)%Q)
                [Some {| success := true; time_elapsed_ms := 10 |}; None;
                 Some {| success := false; time_elapsed_ms := 0 |}]).
  { repeat constructor; unfold Qle; simpl; lia. }
  split; [exact H |].
  exact (proj1 (received_le_sent _ H 2%nat)).
Defined.


(** C3, as the specification has it, fails between the append and the
    eviction of the 21st iteration: the log holds 21 lines there. *)
Lemma rolling_log_holds_21 :
  exists st : state,
    reachable str_ratio "example.org" 21 1 1 56 false st
    /\ List.length (pings st) = 21%nat.
Proof.
  eexists. split.
  - unfold reachable. eexists. exists (replied 10), 4%nat. split.
    + eapply heads_loop_head with (script := twenty_replies) (st := init);
        [apply head_init | vm_compute; reflexivity].
    + split; [right; reflexivity | reflexivity].
  - vm_compute. reflexivity.
Qed.

Lemma rolling_log_bounded_witness :
  loop_head str_ratio "example.org" 4 1 1 56 false init
  /\ (List.length (pings init) <= 20)%nat
  /\ quiet (replied 10)
  /\ pings (state_of (iteration str_ratio "example.org" 4 1 1 56 false
                        (replied 10) init))
     = RollingLog_append (event_line str_ratio nine_oh_five
                            {| success := true; time_elapsed_ms := 10 |}
                            "example.org" 56) [].
Proof.
  destruct (rolling_log_bounded str_ratio "example.org" 4 1 1 56 false)
    as (H1 & _ & H3 & _).
  assert (Hh : loop_head str_ratio "example.org" 4 1 1 56 false init)
    by apply head_init.
  assert (Hq : quiet (replied 10)) by reflexivity.
  split; [exact Hh |]. split; [exact (H1 init Hh) |]. split; [exact Hq |].
  destruct (H3 (replied 10) init Hq (H1 init Hh)) as (_ & _ & H). exact H.
Defined.



Lemma event_lines_and_rounding_witness :
  quiet (replied 10)
  /\ hd_error (reply (replied 10))
     = Some {| success := true; time_elapsed_ms := 10 |}
  /\ (hour nine_oh_five < 24)%nat
  /\ String.length (strftime_HMS nine_oh_five) = 8%nat
  /\ exists line : string,
       create_ping_output str_ratio nine_oh_five
         {| success := true; time_elapsed_ms := 10 |} "example.org" 56 = Ok line
       /\ last (pings (state_of (iteration str_ratio "example.org" 4 1 1 56 false
                                   (replied 10) init))) "" = line.
Proof.
  destruct (event_lines_and_rounding str_ratio) as (_ & H2 & H3 & _).
  assert (Hq : quiet (replied 10)) by reflexivity.
  split; [exact Hq |]. split; [reflexivity |]. split; [simpl; lia |].
  split.
  - apply (H3 nine_oh_five); simpl; lia.
  - exact (H2 "example.org" 4 1 1 56 false (replied 10) init _ Hq eq_refl).
Defined.


Lemma unbound_stats_faults_witness :
  0 <= 0
  /\ fst (ping_cli str_ratio "example.org" 0 1 1 56 false [replied 10])
     = Faulted UnboundLocalError
  /\ loop_test false 4 init = true
  /\ interrupt (interrupted 3) = Some 3%nat
  /\ (3 <= 7)%nat
  /\ exists st : state,
       ping_cli str_ratio "example.org" 4 1 1 56 false [interrupted 3]
       = (Faulted UnboundLocalError, st)
       /\ stats st = None.
Proof.
  destruct (unbound_stats_faults str_ratio "example.org" 0 1 1 56) as (H1 & _).
  destruct (unbound_stats_faults str_ratio "example.org" 4 1 1 56) as (_ & H2).
  assert (H0 : 0 <= 0) by lia.
  assert (H3 : (3 <= 7)%nat) by lia.
  split; [exact H0 |]. split; [rewrite (H1 [replied 10] H0); reflexivity |].
  split; [reflexivity |]. split; [reflexivity |]. split; [exact H3 |].
  destruct (H2 false (interrupted 3) [] 3%nat eq_refl eq_refl H3)
    as (st & tr & Hrun & Hs & _).
  exists st. split; [exact Hrun | exact Hs].
Defined.

Lemma colouring_monotone_witness :
  (50 <= 100)%Q
  /\ num_le (Fin 49) (Fin 100)
  /\ format_color str_ratio (Fin 49) [50%Q; 100%Q] "ms"
     = Ok (markup good (str_ratio (Fin 49) ++ "ms"))
  /\ format_color str_ratio (Fin 100) [50%Q; 100%Q] "ms"
     = Ok (markup bad (str_ratio (Fin 100) ++ "ms"))
  /\ (rank good <= rank bad)%nat.
Proof.
  assert (H1 : (50 <= 100)%Q) by (unfold Qle; simpl; lia).
  assert (H2 : num_le (Fin 49) (Fin 100)) by (unfold num_le, Qle; simpl; lia).
  assert (H3 : format_color str_ratio (Fin 49) [50%Q; 100%Q] "ms"
               = Ok (markup good (str_ratio (Fin 49) ++ "ms"))) by reflexivity.
  assert (H4 : format_color str_ratio (Fin 100) [50%Q; 100%Q] "ms"
               = Ok (markup bad (str_ratio (Fin 100) ++ "ms"))) by reflexivity.
  repeat split; try assumption.
  exact (colouring_monotone str_ratio 50 100 (Fin 49) (Fin 100) "ms" _ _ good bad
           H1 H2 H3 H4).
Defined.

Lemma loss_percentage_range_witness :
  reachable str_ratio "example.org" 4 1 1 56 false init
  /\ exists loss : Q, loss_percentage init = Ok loss /\ (0 <= loss <= 100)%Q.
Proof.
  assert (Hr : reachable str_ratio "example.org" 4 1 1 56 false init).
  { exists init, no_reply, 0%nat. split; [apply head_init |].
    split; [now left | reflexivity]. }
  split; [exact Hr |].
  destruct (loss_percentage_range str_ratio "example.org" 4 1 1 56 false init Hr)
    as (loss & H1 & H2 & _).
  exists loss. split; [exact H1 | exact H2].
Defined.





